(** * ton-wallet-switcher: a shallow embedding of the wallet manager

    The Go program keeps one wallet directory at a time in the reserved
    slot [currentWalletDirName] ("data") of the wallets root directory and
    records the other wallets by name in a JSON config.  This file embeds
    the wallet-manager functions of [src/unnamed/part_001] (with the
    [scanLine] of [src/input.go]) in module [Part001], and those of the
    older self-contained copy [src/main.go] in module [MainGo], over a
    common model of the process state:

    - the [Config] struct, with [Wallets] as a [gmap string string];
    - the wallets root directory, the current working directory of every
      operation, as a flat map from entry names to entries, on a
      case-sensitive file system; every name the Go code passes to the file
      system is taken as the name of a direct child of that directory.  That
      is what the kernel does for a [plainName]; a wallet name such as
      "x/y" or ".." (which [Edit] and the prompts accept) is resolved as a
      path instead, which the model does not follow, so the theorems about
      renames are stated for plain names;
    - the standard input, as the list of lines still to be read;
    - Go's [os.Rename] on unix, which refuses an existing directory as its
      target before calling rename(2).

    A Go function [f(config *Config, ...) error] becomes a computation in
    the state-and-error monad [M]: it returns [inl e] for a non-nil error
    and [inr _] for nil, together with the state it leaves behind (the Go
    code mutates [*config] in place, also on its error paths). *)

From Stdlib Require Import String DecimalString.
From stdpp Require Import base gmap strings list sorting.

Open Scope string_scope.

(* ------------------------------------------------------------------ *)
(** ** Data model *)

Definition currentWalletDirName : string := "data".

(** The persisted configuration ([type Config struct]). *)
Record Config := mkConfig {
  configFilePath : string;
  WalletsDir : string;
  CurrentWallet : string;
  Wallets : gmap string string
}.

Definition setCurrentWallet (c : Config) (n : string) : Config :=
  mkConfig (configFilePath c) (WalletsDir c) n (Wallets c).

Definition setWallets (c : Config) (w : gmap string string) : Config :=
  mkConfig (configFilePath c) (WalletsDir c) (CurrentWallet c) w.

(** An entry of the wallets root directory.  A directory records whether
    it holds a regular file named "salt" (the marker of [isWalletDir]). *)
Inductive Entry :=
| EDir (salt : bool)
| EFile.

(** The wallets root directory: entry name -> entry. *)
Abbreviation FS := (gmap string Entry).

(** Looking a path up: the empty path never names an entry (ENOENT). *)
Definition fsLookup (fs : FS) (p : string) : option Entry :=
  if bool_decide (p = "") then None else fs !! p.

(** A name that the kernel resolves as one entry of the working directory:
    not empty, not "." or "..", without '/' and without a NUL byte (which
    Go refuses with EINVAL), and at most NAME_MAX = 255 bytes long (longer
    ones fail with ENAMETOOLONG).  On such names the flat map above is the
    directory as the system calls see it. *)
Definition plainName (n : string) : bool :=
  negb (bool_decide (n = "")) && negb (bool_decide (n = ".")) && negb (bool_decide (n = ".."))
  && negb (existsb (fun ch => Ascii.eqb ch (Ascii.ascii_of_nat 47) || Ascii.eqb ch (Ascii.ascii_of_nat 0))
                   (list_ascii_of_string n))
  && Nat.leb (String.length n) 255.

(** The errno values the filesystem calls below produce. *)
Inductive Errno := ENOENT | EEXIST | ENOTDIR.

(** [errors.Is(err, os.ErrNotExist)] *)
Definition isNotExist (e : Errno) : bool :=
  match e with ENOENT => true | _ => false end.

(** [os.Rename(oldname, newname)] on unix: Go first refuses a directory
    target (ENOENT if the source is missing, EEXIST otherwise, also when
    both names are equal), then calls rename(2), which fails with ENOENT
    on an empty target path. *)
Definition osRename (oldname newname : string) (fs : FS) : option Errno * FS :=
  match fsLookup fs newname with
  | Some (EDir _) =>
      match fsLookup fs oldname with
      | None => (Some ENOENT, fs)
      | Some _ => (Some EEXIST, fs)
      end
  | tgt =>
      match fsLookup fs oldname with
      | None => (Some ENOENT, fs)
      | Some e =>
          if bool_decide (newname = "") then (Some ENOENT, fs)
          else if bool_decide (oldname = newname) then (None, fs)
          else match e, tgt with
               | EDir _, Some EFile => (Some ENOTDIR, fs)
               | _, _ => (None, <[newname := e]> (delete oldname fs))
               end
      end
  end.

(** [os.RemoveAll(path)]: a missing path is not an error. *)
Definition osRemoveAll (p : string) (fs : FS) : FS := delete p fs.

(** [isWalletDir]: the entry is a directory holding a regular "salt". *)
Definition isWalletDir (fs : FS) (walletDir : string) : bool :=
  match fsLookup fs walletDir with
  | Some (EDir true) => true
  | _ => false
  end.

(** [getWallets]: the names of the wallet directories of the root, in the
    order of [os.ReadDir], which sorts the entries by name (bytewise, as
    Go's [<] on strings and [String.leb] do).  [os.ReadDir]'s own failure
    (an unreadable root) is not modelled: the map lists the entries. *)
Definition strLeb (a b : string) : Prop := String.leb a b = true.
#[global] Instance strLeb_dec : RelDecision strLeb := fun a b => _ : Decision (String.leb a b = true).

Definition getWallets (fs : FS) : list string :=
  filter (fun n => isWalletDir fs n = true)
    (merge_sort strLeb (map fst (map_to_list fs))).

(* ------------------------------------------------------------------ *)
(** ** Errors and the state-and-error monad *)

Inductive Err :=
| AlreadyActive          (* "already switched to wallet" *)
| NotFound               (* "no wallet ... present" *)
| NotADirectory          (* "... is not a directory" *)
| NotAWalletDirectory    (* "... is not a wallet directory" *)
| Aborted                (* "operation aborted" *)
| IOError (e : Errno)    (* an error returned by the filesystem *)
| Fatal.                 (* [logFatal]: standard input exhausted *)

Record St := mkSt { cfg : Config; fs : FS; input : list string }.

Definition M (A : Type) : Type := St -> (Err + A) * St.

Definition ret {A} (a : A) : M A := fun s => (inr a, s).
Definition throw {A} (e : Err) : M A := fun s => (inl e, s).
Definition bind {A B} (m : M A) (k : A -> M B) : M B :=
  fun s => match m s with
           | (inl e, s') => (inl e, s')
           | (inr a, s') => k a s'
           end.

Notation "'let*' x ':=' m 'in' k" := (bind m (fun x => k))
  (at level 200, x name, m at level 100, k at level 200).
Notation "m ;;; k" := (bind m (fun _ => k)) (at level 100, right associativity).

Definition getCfg : M Config := fun s => (inr (cfg s), s).
Definition putCfg (c : Config) : M unit :=
  fun s => (inr tt, mkSt c (fs s) (input s)).

(** A filesystem call: its error is returned as a value, as in Go. *)
Definition liftFS {A} (f : FS -> A * FS) : M A :=
  fun s => let '(r, fs') := f (fs s) in (inr r, mkSt (cfg s) fs' (input s)).

Definition rename (o n : string) : M (option Errno) := liftFS (osRename o n).
Definition stat (p : string) : M (option Entry) :=
  liftFS (fun fs => (fsLookup fs p, fs)).
Definition removeAll (p : string) : M unit :=
  liftFS (fun fs => (tt, osRemoveAll p fs)).

(** [scanLine]: the next line of standard input; [logFatal] at its end. *)
Definition scanLine : M string :=
  fun s => match input s with
           | [] => (inl Fatal, s)
           | l :: rest => (inr l, mkSt (cfg s) (fs s) rest)
           end.

(** The name prompt loop shared by [addWallet] and [Edit]:
    [for { name = scanLine(); if name == "" { name = dflt };
           if name != currentWalletDirName { break } }]. *)
Fixpoint nameLoop (dflt : string) (inp : list string) : option (string * list string) :=
  match inp with
  | [] => None
  | l :: rest =>
      let n := if bool_decide (l = "") then dflt else l in
      if bool_decide (n = currentWalletDirName) then nameLoop dflt rest
      else Some (n, rest)
  end.

Definition promptName (dflt : string) : M string :=
  fun s => match nameLoop dflt (input s) with
           | None => (inl Fatal, mkSt (cfg s) (fs s) [])
           | Some (n, rest) => (inr n, mkSt (cfg s) (fs s) rest)
           end.

(** [for name := range config.Wallets { ... }] visits the keys in an
    unspecified order; [seed] selects which key comes first. *)
Definition firstKey (seed : nat) (m : gmap string string) : option string :=
  let ks := map fst (map_to_list m) in
  nth_error ks (seed mod length ks).

(** [if err != nil { return err }] *)
Definition check (err : option Errno) : M unit :=
  match err with Some e => throw (IOError e) | None => ret tt end.

(** [if err != nil && !errors.Is(err, os.ErrNotExist) { return err }] *)
Definition checkExceptNotExist (err : option Errno) : M unit :=
  match err with
  | Some e => if isNotExist e then ret tt else throw (IOError e)
  | None => ret tt
  end.

(** [value, ok := config.Wallets[name]] as read by Go: the zero value ""
    for a missing key. *)
Definition walletDescription (c : Config) (n : string) : string :=
  default "" (Wallets c !! n).

(* ------------------------------------------------------------------ *)
(** ** The wallet manager of [src/unnamed/part_001] *)

Module Part001.

Definition Switch (walletName : string) : M unit :=
  let* c := getCfg in
  if bool_decide (CurrentWallet c = walletName) then throw AlreadyActive else
  match Wallets c !! walletName with
  | None => throw NotFound
  | Some _ =>
      (if bool_decide (CurrentWallet c <> "") then
         let* err := rename currentWalletDirName (CurrentWallet c) in
         check err
       else ret tt) ;;;
      let* err := rename walletName currentWalletDirName in
      checkExceptNotExist err ;;;
      let* c := getCfg in
      putCfg (setCurrentWallet c walletName)
  end.

Definition switchToFirstWallet (seed : nat) : M unit :=
  let* c := getCfg in
  match firstKey seed (Wallets c) with
  | None => ret tt
  | Some name => Switch name
  end.

Definition addWallet (walletDirName : string) (changeCurrentWallet : bool) : M unit :=
  let* walletName :=
    (if bool_decide (walletDirName = currentWalletDirName)
     then promptName walletDirName else ret walletDirName) in
  let* c := getCfg in
  (if changeCurrentWallet && bool_decide (walletDirName = currentWalletDirName)
   then putCfg (setCurrentWallet c walletName) else ret tt) ;;;
  let* description := scanLine in
  let* c := getCfg in
  putCfg (setWallets c (<[walletName := description]> (Wallets c))).

Fixpoint addWallets (wallets : list string) : M unit :=
  match wallets with
  | [] => ret tt
  | walletDirName :: rest => addWallet walletDirName true ;;; addWallets rest
  end.

Definition Init (seed : nat) : M unit :=
  let* wallets := liftFS (fun fs => (getWallets fs, fs)) in
  let* c := getCfg in
  putCfg (mkConfig (configFilePath c) (WalletsDir c) "" ∅) ;;;
  addWallets wallets ;;;
  let* c := getCfg in
  if bool_decide (CurrentWallet c = "") then switchToFirstWallet seed else ret tt.

Definition Edit (walletName : string) : M unit :=
  let* c := getCfg in
  match Wallets c !! walletName with
  | None => throw NotFound
  | Some _ =>
      let* newWalletName := promptName walletName in
      let* d := scanLine in
      let* c := getCfg in
      let newWalletDescription :=
        if bool_decide (d = "") then walletDescription c walletName else d in
      (if bool_decide (CurrentWallet c = walletName)
       then putCfg (setCurrentWallet c newWalletName)
       else if bool_decide (newWalletName <> walletName)
       then let* err := rename walletName newWalletName in check err
       else ret tt) ;;;
      let* c := getCfg in
      putCfg (setWallets c (<[newWalletName := newWalletDescription]> (Wallets c))) ;;;
      let* c := getCfg in
      if bool_decide (walletName <> newWalletName)
      then putCfg (setWallets c (delete walletName (Wallets c)))
      else ret tt
  end.

(** [os.Stat(walletDirName)] relative to the root, and [isWalletDir] on
    [config.WalletsDir], the same directory. *)
Definition Add (walletDirName : string) : M unit :=
  let* info := stat walletDirName in
  (match info with
   | None => ret tt
   | Some EFile => throw NotADirectory
   | Some (EDir _) =>
       let* ok := liftFS (fun fs => (isWalletDir fs walletDirName, fs)) in
       if ok then ret tt else throw NotAWalletDirectory
   end) ;;;
  addWallet walletDirName false ;;;
  Switch walletDirName.

Definition Forget (seed : nat) (walletName : string) : M unit :=
  let* c := getCfg in
  match Wallets c !! walletName with
  | None => throw NotFound
  | Some _ =>
      if bool_decide (CurrentWallet c = walletName) then
        let* err := rename currentWalletDirName walletName in
        checkExceptNotExist err ;;;
        let* c := getCfg in
        putCfg (setWallets c (delete walletName (Wallets c))) ;;;
        let* c := getCfg in
        putCfg (setCurrentWallet c "") ;;;
        switchToFirstWallet seed
      else
        let* c := getCfg in
        putCfg (setWallets c (delete walletName (Wallets c)))
  end.

Definition Remove (seed : nat) (walletName : string) : M unit :=
  let* c := getCfg in
  match Wallets c !! walletName with
  | None => throw NotFound
  | Some _ =>
      let* confirmation := scanLine in
      if bool_decide (confirmation = "yes") then
        Forget seed walletName ;;;
        removeAll walletName
      else throw Aborted
  end.

End Part001.

(* ------------------------------------------------------------------ *)
(** ** The wallet manager of [src/main.go]

    This copy differs from [Part001] in three functions: [Switch] does not
    look the wallet up, and [Edit] and [Forget] test for presence with
    [config.Wallets[walletName] == ""]; it has no [Remove]. *)

Module MainGo.

Definition Switch (walletName : string) : M unit :=
  let* c := getCfg in
  if bool_decide (CurrentWallet c = walletName) then throw AlreadyActive else
  (if bool_decide (CurrentWallet c <> "") then
     let* err := rename currentWalletDirName (CurrentWallet c) in
     check err
   else ret tt) ;;;
  let* err := rename walletName currentWalletDirName in
  checkExceptNotExist err ;;;
  let* c := getCfg in
  putCfg (setCurrentWallet c walletName).

Definition switchToFirstWallet (seed : nat) : M unit :=
  let* c := getCfg in
  match firstKey seed (Wallets c) with
  | None => ret tt
  | Some name => Switch name
  end.

(** [walletExists] is not read by the Go function. *)
Definition addWallet (walletDirName : string) (walletExists : bool)
    (changeCurrentWallet : bool) : M unit :=
  let* walletName :=
    (if bool_decide (walletDirName = currentWalletDirName)
     then promptName walletDirName else ret walletDirName) in
  let* c := getCfg in
  (if changeCurrentWallet && bool_decide (walletDirName = currentWalletDirName)
   then putCfg (setCurrentWallet c walletName) else ret tt) ;;;
  let* description := scanLine in
  let* c := getCfg in
  putCfg (setWallets c (<[walletName := description]> (Wallets c))).

Fixpoint addWallets (wallets : list string) : M unit :=
  match wallets with
  | [] => ret tt
  | walletDirName :: rest => addWallet walletDirName true true ;;; addWallets rest
  end.

Definition Init (seed : nat) : M unit :=
  let* wallets := liftFS (fun fs => (getWallets fs, fs)) in
  let* c := getCfg in
  putCfg (mkConfig (configFilePath c) (WalletsDir c) "" ∅) ;;;
  addWallets wallets ;;;
  let* c := getCfg in
  if bool_decide (CurrentWallet c = "") then switchToFirstWallet seed else ret tt.

Definition Edit (walletName : string) : M unit :=
  let* c := getCfg in
  if bool_decide (walletDescription c walletName = "") then throw NotFound else
  let* newWalletName := promptName walletName in
  let* d := scanLine in
  let* c := getCfg in
  let newWalletDescription :=
    if bool_decide (d = "") then walletDescription c walletName else d in
  (if bool_decide (CurrentWallet c = walletName)
   then putCfg (setCurrentWallet c newWalletName)
   else if bool_decide (newWalletName <> walletName)
   then let* err := rename walletName newWalletName in check err
   else ret tt) ;;;
  let* c := getCfg in
  putCfg (setWallets c (<[newWalletName := newWalletDescription]> (Wallets c))) ;;;
  let* c := getCfg in
  if bool_decide (walletName <> newWalletName)
  then putCfg (setWallets c (delete walletName (Wallets c)))
  else ret tt.

Definition Add (walletDirName : string) : M unit :=
  let* info := stat walletDirName in
  let exists_ := match info with None => false | Some _ => true end in
  (match info with
   | None => ret tt
   | Some EFile => throw NotADirectory
   | Some (EDir _) =>
       let* ok := liftFS (fun fs => (isWalletDir fs walletDirName, fs)) in
       if ok then ret tt else throw NotAWalletDirectory
   end) ;;;
  addWallet walletDirName exists_ false ;;;
  Switch walletDirName.

Definition Forget (seed : nat) (walletName : string) : M unit :=
  let* c := getCfg in
  if bool_decide (walletDescription c walletName = "") then throw NotFound else
  if bool_decide (CurrentWallet c = walletName) then
    let* err := rename currentWalletDirName walletName in
    checkExceptNotExist err ;;;
    let* c := getCfg in
    putCfg (setWallets c (delete walletName (Wallets c))) ;;;
    let* c := getCfg in
    putCfg (setCurrentWallet c "") ;;;
    switchToFirstWallet seed
  else
    let* c := getCfg in
    putCfg (setWallets c (delete walletName (Wallets c))).

End MainGo.

(* ------------------------------------------------------------------ *)
(** ** The rest of [src/unnamed/part_001]: [getCount], [Status],
    [getWalletsDir] and [main] *)

Module Program.

(** [getCount]: [fmt.Sprintf("%d %s", count, noun)]. *)
Definition getCount (count : nat) : string :=
  let noun := if bool_decide (count = 1) then "wallet" else "wallets" in
  NilEmpty.string_of_uint (Nat.to_uint count) ++ " " ++ noun.

Definition newline : string := String (Ascii.ascii_of_nat 10) EmptyString.

(** One line of [Status]: [fmt.Printf("%s: %s\n", name, description)],
    the description of the current wallet suffixed with " (current)". *)
Definition statusLine (currentWallet : string) (entry : string * string) : string :=
  let '(name, description) := entry in
  let description :=
    if bool_decide (name = currentWallet) then description ++ " (current)"
    else description in
  name ++ ": " ++ description ++ newline.

(** [Status]: the lines it prints, visiting the wallets in [order], the
    listing of [config.Wallets] in Go's (unspecified) iteration order. *)
Definition Status (c : Config) (order : list (string * string)) : list string :=
  (getCount (size (Wallets c)) ++ ":" ++ newline) :: map (statusLine (CurrentWallet c)) order.

(** [Init] when [config.WalletsDir] is the directory [walletsDir] and the
    working directory, where the renames of [Switch] act, is the state's. *)
Definition InitAt (walletsDir : FS) (seed : nat) : M unit :=
  let* wallets := ret (getWallets walletsDir) in
  let* c := getCfg in
  putCfg (mkConfig (configFilePath c) (WalletsDir c) "" ∅) ;;;
  Part001.addWallets wallets ;;;
  let* c := getCfg in
  if bool_decide (CurrentWallet c = "") then Part001.switchToFirstWallet seed else ret tt.

Definition setWalletsDir (c : Config) (d : string) : Config :=
  mkConfig (configFilePath c) d (CurrentWallet c) (Wallets c).

(** The config file: decoded without error, or missing, unreadable or
    not decodable, with the fields [json.Unmarshal] set before failing
    (none for a missing file). *)
Inductive ConfigFile :=
| Decoded (c : Config)
| Undecoded (partial : Config).

(** What a run of the program sees and changes: the config file, the
    wallets directory, the directory the program is started in ([None]
    when it is the wallets directory itself) and the standard input.  The
    standard output is not modelled. *)
Record World := mkWorld {
  configFile : ConfigFile;
  walletsRoot : FS;
  startDir : option FS;
  stdin : list string
}.

Definition setStdin (w : World) (inp : list string) : World :=
  mkWorld (configFile w) (walletsRoot w) (startDir w) inp.

Definition putRoot (w : World) (f : FS) : World :=
  mkWorld (configFile w) f (startDir w) (stdin w).

(** The directory the program is started in. *)
Definition cwd (w : World) : FS := default (walletsRoot w) (startDir w).

Definition putCwd (w : World) (f : FS) : World :=
  match startDir w with
  | None => putRoot w f
  | Some _ => mkWorld (configFile w) (walletsRoot w) (Some f) (stdin w)
  end.

Section Main.

(** The environment: the path [xdg.ConfigFile(configFilePath)] returns
    (its failure, a [logFatal], is not modelled), the result of
    [xdg.SearchDataFile(walletsDirName)] ([None] on error), and whether
    [os.Stat(path)] succeeds on a directory. *)
Variable xdgConfigFile : string.
Variable xdgSearchDataFile : option string.
Variable isDirPath : string -> bool.

(** The prompt loop of [getWalletsDir]: the first entered path that is a
    directory. *)
Fixpoint pathLoop (inp : list string) : option (string * list string) :=
  match inp with
  | [] => None
  | l :: rest => if isDirPath l then Some (l, rest) else pathLoop rest
  end.

Definition getWalletsDir : M string :=
  match xdgSearchDataFile with
  | Some walletsDir => ret walletsDir
  | None => fun s => match pathLoop (input s) with
                     | None => (inl Fatal, mkSt (cfg s) (fs s) [])
                     | Some (p, rest) => (inr p, mkSt (cfg s) (fs s) rest)
                     end
  end.

(** [getConfig]: the config with [configFilePath] set, and whether reading
    or decoding failed. *)
Definition getConfig (f : ConfigFile) : Config * bool :=
  match f with
  | Decoded c => (mkConfig xdgConfigFile (WalletsDir c) (CurrentWallet c) (Wallets c), false)
  | Undecoded c => (mkConfig xdgConfigFile (WalletsDir c) (CurrentWallet c) (Wallets c), true)
  end.

(** [wrapSubcommand(err)] after a subcommand run in a directory that [put]
    writes back: [logFatal] (exit status 1, the config file untouched) on
    an error, otherwise [writeConfig] (whose failure is not modelled). *)
Definition wrapSubcommand (put : World -> FS -> World) (w : World)
    (r : (Err + unit) * St) : nat * World :=
  let '(res, s) := r in
  let w' := put (setStdin w (input s)) (fs s) in
  match res with
  | inl _ => (1, w')
  | inr _ => (0, mkWorld (Decoded (cfg s)) (walletsRoot w') (startDir w') (stdin w'))
  end.

(** [loadConfig], then the continuation [k] with the loaded config; after
    [os.Chdir(config.WalletsDir)] the working directory is the wallets
    directory.  On a config file that could not be read, [Init] runs
    instead and the program exits. *)
Definition loadConfig (seed : nat) (k : Config -> World -> nat * World) (w : World) :
    nat * World :=
  let '(config, failed) := getConfig (configFile w) in
  let '(r, s) :=
    (if bool_decide (WalletsDir config = "") then
       let* walletsDir := getWalletsDir in
       let* c := getCfg in
       putCfg (setWalletsDir c walletsDir)
     else ret tt) (mkSt config (walletsRoot w) (stdin w)) in
  let w := setStdin w (input s) in
  match r with
  | inl _ => (1, w)
  | inr _ =>
      if negb (isDirPath (WalletsDir (cfg s))) then (1, w)
      else if failed then
        wrapSubcommand putRoot w (Part001.Init seed (mkSt (cfg s) (walletsRoot w) (stdin w)))
      else k (cfg s) w
  end.

(** A subcommand with an argument: [loadConfig()], then
    [wrapSubcommand(f(&config, argument))] in the wallets directory. *)
Definition runSubcommand (seed : nat) (m : M unit) (w : World) : nat * World :=
  loadConfig seed
    (fun config w => wrapSubcommand putRoot w (m (mkSt config (walletsRoot w) (stdin w)))) w.

(** [main] on [os.Args]; the result is the exit status and the world
    after the run.  [logHelp] exits with status 1. *)
Definition main (seed : nat) (args : list string) (w : World) : nat * World :=
  match args with
  | _ :: subcommand :: ((_ :: _) as rest) =>
      let argument := String.concat " " rest in
      if bool_decide (subcommand = "switch") then runSubcommand seed (Part001.Switch argument) w
      else if bool_decide (subcommand = "edit") then runSubcommand seed (Part001.Edit argument) w
      else if bool_decide (subcommand = "add") then runSubcommand seed (Part001.Add argument) w
      else if bool_decide (subcommand = "forget") then
        runSubcommand seed (Part001.Forget seed argument) w
      else if bool_decide (subcommand = "remove") then
        runSubcommand seed (Part001.Remove seed argument) w
      else (1, w)
  | [_; subcommand] =>
      if bool_decide (subcommand = "init") then
        let config := mkConfig xdgConfigFile "" "" ∅ in
        let '(r, s) := getWalletsDir (mkSt config (cwd w) (stdin w)) in
        match r with
        | inl _ => (1, setStdin w (input s))
        | inr walletsDir =>
            wrapSubcommand putCwd w
              (InitAt (walletsRoot w) seed (mkSt (setWalletsDir config walletsDir) (cwd w) (input s)))
        end
      else if bool_decide (subcommand = "status") then loadConfig seed (fun _ w => (0, w)) w
      else if bool_decide (subcommand = "config") then (0, w)
      else if bool_decide (subcommand = "directory") then
        let '(r, s) := getWalletsDir (mkSt (mkConfig "" "" "" ∅) (cwd w) (stdin w)) in
        match r with
        | inl _ => (1, setStdin w (input s))
        | inr _ => (0, setStdin w (input s))
        end
      else if bool_decide (subcommand = "help") then (0, w)
      else (1, w)
  | _ => (1, w)
  end.

End Main.

End Program.

(* ------------------------------------------------------------------ *)
(** ** Successful runs *)

Lemma bind_inr {A B} (m : M A) (k : A -> M B) s b s2 :
  bind m k s = (inr b, s2) ->
  exists a s1, m s = (inr a, s1) /\ k a s1 = (inr b, s2).
Proof. unfold bind. destruct (m s) as [[e|a] s1]; [discriminate | eauto]. Qed.

Lemma nameLoop_not_data dflt inp n rest :
  nameLoop dflt inp = Some (n, rest) -> n <> currentWalletDirName.
Proof.
  induction inp as [|l inp IH]; simpl; [discriminate|].
  case_bool_decide; [exact IH|].
  intros [= <- _]. assumption.
Qed.

Lemma promptName_ok dflt s n s' :
  promptName dflt s = (inr n, s') ->
  (exists rest, s' = mkSt (cfg s) (fs s) rest) /\ n <> currentWalletDirName.
Proof.
  unfold promptName. destruct (nameLoop dflt (input s)) as [[m rest]|] eqn:E;
    intros; simplify_eq/=.
  eauto using nameLoop_not_data.
Qed.

Lemma scanLine_ok s l s' :
  scanLine s = (inr l, s') -> exists rest, s' = mkSt (cfg s) (fs s) rest.
Proof. unfold scanLine. destruct (input s); intros; simplify_eq/=; eauto. Qed.

(** Take a successful run apart into the runs of its statements. *)
Ltac ok_step :=
  match goal with
  | H : bind _ _ _ = (inr _, _) |- _ =>
      let a := fresh "a" in let s := fresh "s" in let H1 := fresh "Hrun" in
      apply bind_inr in H; destruct H as (a & s & H1 & H); cbv beta in H
  | H : ret _ _ = _ |- _ => unfold ret in H; simplify_eq
  | H : throw _ _ = _ |- _ => unfold throw in H; simplify_eq
  | H : getCfg _ = _ |- _ => unfold getCfg in H; simplify_eq
  | H : putCfg _ _ = _ |- _ => unfold putCfg in H; simplify_eq
  | H : check _ _ = _ |- _ => unfold check in H
  | H : checkExceptNotExist _ _ = _ |- _ => unfold checkExceptNotExist in H
  | H : rename _ _ _ = _ |- _ => unfold rename, liftFS in H
  | H : stat _ _ = _ |- _ => unfold stat, liftFS in H
  | H : removeAll _ _ = _ |- _ => unfold removeAll, liftFS in H
  | H : liftFS _ _ = _ |- _ => unfold liftFS in H
  | H : scanLine _ = (inr _, _) |- _ =>
      destruct (scanLine_ok _ _ _ H) as [? ->]; clear H
  | H : promptName _ _ = (inr _, _) |- _ =>
      destruct (promptName_ok _ _ _ _ H) as ([? ->] & ?); clear H
  | H : (match ?x with _ => _ end) _ = _ |- _ => destruct x eqn:?
  | H : (let '(_, _) := ?x in _) = _ |- _ => destruct x eqn:?
  | H : bool_decide _ = true |- _ => apply bool_decide_eq_true in H
  | H : bool_decide _ = false |- _ => apply bool_decide_eq_false in H
  end.

Ltac run_ok := repeat (ok_step; simplify_eq/=).

Lemma Switch_ok n s s' :
  Part001.Switch n s = (inr tt, s') ->
  cfg s' = setCurrentWallet (cfg s) n /\
  CurrentWallet (cfg s) <> n /\ is_Some (Wallets (cfg s) !! n).
Proof.
  unfold Part001.Switch. intros H. run_ok; eauto.
Qed.

(* ------------------------------------------------------------------ *)
(** ** The config invariant of [Part001] *)

(** [CurrentWallet] is empty or a wallet, never the reserved slot name,
    and the reserved slot name is never a wallet. *)
Definition Inv (c : Config) : Prop :=
  (CurrentWallet c = "" \/ is_Some (Wallets c !! CurrentWallet c)) /\
  CurrentWallet c <> currentWalletDirName /\
  Wallets c !! currentWalletDirName = None.

(** The operations of the command line, with their arguments. *)
Inductive Op :=
| OInit (seed : nat)
| OSwitch (name : string)
| OEdit (name : string)
| OAdd (name : string)
| OForget (seed : nat) (name : string)
| ORemove (seed : nat) (name : string).

Definition runOp (o : Op) : M unit :=
  match o with
  | OInit seed => Part001.Init seed
  | OSwitch n => Part001.Switch n
  | OEdit n => Part001.Edit n
  | OAdd n => Part001.Add n
  | OForget seed n => Part001.Forget seed n
  | ORemove seed n => Part001.Remove seed n
  end.

(** [main] writes the config back only when the operation returned nil;
    between two runs the directory and the standard input are arbitrary. *)
Definition step (c c' : Config) : Prop :=
  exists o fs0 inp s', runOp o (mkSt c fs0 inp) = (inr tt, s') /\ cfg s' = c'.

Definition initialized (c : Config) : Prop :=
  exists seed s s', Part001.Init seed s = (inr tt, s') /\ cfg s' = c.

Definition reachable (c : Config) : Prop :=
  exists c0, initialized c0 /\ rtc step c0 c.

Lemma is_Some_insert (m : gmap string string) k a v :
  is_Some (m !! k) -> is_Some (<[a := v]> m !! k).
Proof. rewrite lookup_insert_is_Some'. auto. Qed.

Lemma is_Some_delete (m : gmap string string) k a :
  a <> k -> is_Some (m !! k) -> is_Some (delete a m !! k).
Proof. intros. rewrite lookup_delete_ne; auto. Qed.

Lemma key_not_data (m : gmap string string) n :
  m !! currentWalletDirName = None -> is_Some (m !! n) -> n <> currentWalletDirName.
Proof. intros H [v Hv] ->. congruence. Qed.

Create HintDb wallet.
#[export] Hint Resolve or_introl or_intror is_Some_insert is_Some_delete
  key_not_data : wallet.
#[export] Hint Extern 1 (is_Some (Some _)) => eexists; reflexivity : wallet.
#[export] Hint Extern 1 (_ <> _) => congruence : wallet.

Ltac inv_solve :=
  unfold Inv, setCurrentWallet, setWallets in *; simpl in *;
  repeat match goal with H : _ /\ _ |- _ => destruct H end;
  repeat match goal with H : _ \/ _ |- _ => destruct H end;
  repeat split; simplify_map_eq; eauto with wallet.

Lemma Switch_inv n s s' u :
  Inv (cfg s) -> Part001.Switch n s = (inr u, s') -> Inv (cfg s').
Proof.
  destruct u. intros HI (-> & Hne & Hk)%Switch_ok.
  inv_solve.
Qed.

Lemma switchToFirstWallet_inv seed s s' u :
  Inv (cfg s) -> Part001.switchToFirstWallet seed s = (inr u, s') -> Inv (cfg s').
Proof.
  unfold Part001.switchToFirstWallet. intros HI H. run_ok; eauto using Switch_inv.
Qed.

Lemma addWallet_inv d b s s' u :
  Inv (cfg s) -> Part001.addWallet d b s = (inr u, s') -> Inv (cfg s').
Proof.
  unfold Part001.addWallet. intros HI H. run_ok; inv_solve.
Qed.

Lemma addWallets_inv ds s s' u :
  Inv (cfg s) -> Part001.addWallets ds s = (inr u, s') -> Inv (cfg s').
Proof.
  revert s. induction ds as [|d ds IH]; simpl; intros s HI H; run_ok; auto.
  eauto using addWallet_inv.
Qed.

Lemma Init_inv seed s s' u :
  Part001.Init seed s = (inr u, s') -> Inv (cfg s').
Proof.
  unfold Part001.Init. intros H. run_ok.
  all: match goal with Hr : Part001.addWallets _ _ = _ |- _ =>
         apply addWallets_inv in Hr; [|inv_solve] end.
  - eauto using switchToFirstWallet_inv.
  - assumption.
Qed.

Lemma Edit_inv n s s' u :
  Inv (cfg s) -> Part001.Edit n s = (inr u, s') -> Inv (cfg s').
Proof.
  unfold Part001.Edit. intros HI H. run_ok; inv_solve.
Qed.

Lemma Add_inv n s s' u :
  Inv (cfg s) -> Part001.Add n s = (inr u, s') -> Inv (cfg s').
Proof.
  unfold Part001.Add. intros HI H. run_ok.
  all: match goal with Hr : Part001.addWallet _ _ _ = _ |- _ =>
         apply addWallet_inv in Hr; [|assumption] end.
  all: eauto using Switch_inv.
Qed.

Lemma Forget_inv seed n s s' u :
  Inv (cfg s) -> Part001.Forget seed n s = (inr u, s') -> Inv (cfg s').
Proof.
  unfold Part001.Forget. intros HI H. run_ok; try inv_solve.
  all: eapply switchToFirstWallet_inv; [|eassumption]; inv_solve.
Qed.

Lemma Remove_inv seed n s s' u :
  Inv (cfg s) -> Part001.Remove seed n s = (inr u, s') -> Inv (cfg s').
Proof.
  unfold Part001.Remove. intros HI H. run_ok.
  eapply Forget_inv; [|eassumption]. assumption.
Qed.

Lemma step_inv c c' : Inv c -> step c c' -> Inv c'.
Proof.
  intros HI (o & fs0 & inp & s' & H & <-).
  destruct o; cbn [runOp] in H;
    [ apply Init_inv in H | apply Switch_inv in H | apply Edit_inv in H
    | apply Add_inv in H | apply Forget_inv in H | apply Remove_inv in H ];
    assumption.
Qed.

Lemma reachable_inv c : reachable c -> Inv c.
Proof.
  intros (c0 & (seed & s & s' & Hi & <-) & Hr).
  apply Init_inv in Hi.
  induction Hr; eauto using step_inv.
Qed.


(* ------------------------------------------------------------------ *)
(** ** Computing runs *)


Lemma osRename_move o n fs e :
  o <> n -> n <> "" -> fsLookup fs o = Some e -> fsLookup fs n = None ->
  osRename o n fs = (None, <[n := e]> (delete o fs)).
Proof.
  intros Hne Hn0 Ho Hn. unfold osRename. rewrite Hn, Ho.
  rewrite !bool_decide_false by assumption. destruct e; reflexivity.
Qed.

Lemma osRename_missing o n fs :
  fsLookup fs o = None -> osRename o n fs = (Some ENOENT, fs).
Proof.
  intros Ho. unfold osRename. rewrite Ho.
  destruct (fsLookup fs n) as [[]|]; reflexivity.
Qed.



Lemma fsLookup_delete fs p q :
  fsLookup (delete p fs) q = if bool_decide (p = q) then None else fsLookup fs q.
Proof.
  unfold fsLookup. case_bool_decide; case_bool_decide; simplify_map_eq; reflexivity.
Qed.


(** [Part001.Switch]: the two refusals change nothing. *)
Lemma Switch_refusals c fs0 inp n :
  (CurrentWallet c = n ->
   Part001.Switch n (mkSt c fs0 inp) = (inl AlreadyActive, mkSt c fs0 inp)) /\
  (CurrentWallet c <> n -> Wallets c !! n = None ->
   Part001.Switch n (mkSt c fs0 inp) = (inl NotFound, mkSt c fs0 inp)).
Proof.
  unfold Part001.Switch, bind, getCfg, throw; simpl. split.
  - intros ->. rewrite bool_decide_true; reflexivity.
  - intros Hne Hn. rewrite bool_decide_false, Hn; auto.
Qed.



Lemma setWallets_same c : setWallets c (Wallets c) = c.
Proof. destruct c; reflexivity. Qed.


Lemma fsLookup_Some fs p e : fsLookup fs p = Some e -> p <> "" /\ fs !! p = Some e.
Proof. unfold fsLookup. case_bool_decide; [discriminate | auto]. Qed.


Lemma bool_decide_ne_refl (x : string) : bool_decide (x <> x) = false.
Proof. apply bool_decide_false. auto. Qed.

(** Decide equations between string literals. *)
Ltac str_dec :=
  repeat match goal with
  | |- context [bool_decide (?x = ?y :> string)] =>
      (rewrite (bool_decide_true (x = y)) by reflexivity) ||
      (rewrite (bool_decide_false (x = y)) by discriminate)
  | |- context [bool_decide (?x <> ?y :> string)] =>
      (rewrite (bool_decide_true (x <> y)) by discriminate) ||
      (rewrite (bool_decide_false (x <> y)) by (intros Hxy; apply Hxy; reflexivity))
  end.

Ltac unfold_M :=
  unfold bind, getCfg, putCfg, rename, stat, removeAll, liftFS, check,
    checkExceptNotExist, ret, throw, scanLine, promptName in *;
  cbn -[osRename currentWalletDirName nameLoop walletDescription firstKey] in *.

(** C7. [Remove] of a wallet with any confirmation other than "yes" fails
    with [Aborted] and leaves the config and the directory as they were. *)
Theorem Remove_not_confirmed (seed : nat) (c : Config) (fs0 : FS)
    (a d l : string) (rest : list string) :
  Wallets c !! a = Some d -> l <> "yes" ->
  Part001.Remove seed a (mkSt c fs0 (l :: rest)) = (inl Aborted, mkSt c fs0 rest).
Proof.
  intros Ha Hl. unfold Part001.Remove. unfold_M.
  rewrite Ha. unfold_M. rewrite bool_decide_false by assumption. reflexivity.
Qed.

(** C9. [Edit] with both prompts left empty changes neither the config
    nor the directory. *)
Theorem Edit_defaults (c : Config) (fs0 : FS) (n d : string) (rest : list string) :
  Wallets c !! n = Some d -> n <> currentWalletDirName ->
  Part001.Edit n (mkSt c fs0 ("" :: "" :: rest)) = (inr tt, mkSt c fs0 rest).
Proof.
  intros Hn Hnd. unfold Part001.Edit. unfold_M.
  rewrite Hn. unfold_M.
  cbn [nameLoop]. rewrite (bool_decide_true (@eq string "" "")) by reflexivity.
  rewrite (bool_decide_false _ Hnd). unfold_M.
  unfold walletDescription. rewrite Hn. cbn [default id].
  rewrite (bool_decide_true (@eq string "" "")) by reflexivity.
  rewrite !bool_decide_ne_refl.
  case_bool_decide as Hcur; unfold_M.
  - unfold setWallets, setCurrentWallet. simpl.
    rewrite insert_id by assumption. destruct c; simpl in *; subst; reflexivity.
  - rewrite insert_id by assumption. rewrite setWallets_same. reflexivity.
Qed.

(** C8, counterexample. From the empty config and an empty wallets
    directory, [Add "alpha"] succeeds, but no "data" directory exists
    afterwards: the rename of the missing "alpha" is skipped. *)
Lemma Add_alpha_creates_no_data :
  let r := Part001.Add "alpha" (mkSt (mkConfig "/c" "/w" "" ∅) ∅ ["desc"]) in
  fst r = inr tt /\ CurrentWallet (cfg (snd r)) = "alpha" /\
  Wallets (cfg (snd r)) !! "alpha" = Some "desc" /\
  fsLookup (fs (snd r)) currentWalletDirName = None.
Proof. vm_compute. repeat split; reflexivity. Qed.

(** C8, amended. With nothing at "alpha" in the wallets directory, [Add
    "alpha"] on the empty config records "alpha" with the entered
    description and makes it the current wallet; the directory is left
    exactly as it was (no "data" directory is created). *)
Theorem Add_new_wallet (p : string) (fs0 : FS) (d : string) (rest : list string) :
  fsLookup fs0 "alpha" = None ->
  Part001.Add "alpha" (mkSt (mkConfig p "/w" "" ∅) fs0 (d :: rest)) =
  (inr tt, mkSt (mkConfig p "/w" "alpha" {["alpha" := d]}) fs0 rest).
Proof.
  intros Ha. unfold Part001.Add, Part001.addWallet, Part001.Switch. unfold_M.
  rewrite Ha. unfold_M. str_dec. unfold_M.
  rewrite lookup_insert_eq. unfold_M. str_dec. unfold_M.
  rewrite osRename_missing by assumption. reflexivity.
Qed.



(** C10. [Edit] of a wallet [a] that is not current, renamed to the name
    [b] of another wallet, is not refused: when the directory has no entry
    [b], it moves the directory [a] to [b], overwrites the description of
    [b] with the new one and deletes [a], so the wallets map loses one
    entry. *)
Theorem Edit_rename_onto_existing (c : Config) (fs0 : FS) (a b da db d : string)
    (e : Entry) (rest : list string) :
  a <> b -> Wallets c !! a = Some da -> Wallets c !! b = Some db ->
  CurrentWallet c <> a -> b <> "" -> b <> currentWalletDirName -> d <> "" ->
  fsLookup fs0 a = Some e -> fsLookup fs0 b = None ->
  Part001.Edit a (mkSt c fs0 (b :: d :: rest)) =
    (inr tt, mkSt (setWallets c (delete a (<[b := d]> (Wallets c))))
                  (<[b := e]> (delete a fs0)) rest) /\
  size (delete a (<[b := d]> (Wallets c))) = pred (size (Wallets c)).
Proof.
  intros Hab Ha Hb Hcur Hb0 Hbd Hd Hfa Hfb. split.
  - unfold Part001.Edit. unfold_M. rewrite Ha. unfold_M.
    cbn [nameLoop]. rewrite (bool_decide_false (b = "")), (bool_decide_false (b = _))
      by assumption.
    unfold_M. rewrite (bool_decide_false (d = "")) by assumption.
    rewrite (bool_decide_false (CurrentWallet c = a)) by assumption.
    rewrite (bool_decide_true (b <> a)) by congruence.
    unfold_M. rewrite (osRename_move _ _ _ e) by (congruence || assumption). unfold_M.
    rewrite (bool_decide_true (a <> b)) by assumption. unfold_M.
    destruct c; reflexivity.
  - rewrite map_size_delete_Some by (rewrite lookup_insert_ne by congruence; eauto).
    rewrite map_size_insert_Some by eauto. reflexivity.
Qed.

(* ------------------------------------------------------------------ *)
(** ** [src/main.go] at concrete inputs *)

(** C1, failing input of [src/main.go].  After [Init] finds the single
    wallet "a" and makes it current, [Switch "zzz"] of an unknown name
    succeeds and makes "zzz", which is not a wallet, the current wallet. *)
Lemma MainGo_Switch_unknown_breaks_invariant :
  let r1 := MainGo.Init 0 (mkSt (mkConfig "/c" "/w" "" ∅) {["a" := EDir true]} ["A"]) in
  let r2 := MainGo.Switch "zzz" (snd r1) in
  fst r1 = inr tt /\ CurrentWallet (cfg (snd r1)) = "a" /\
  fst r2 = inr tt /\ CurrentWallet (cfg (snd r2)) = "zzz" /\
  Wallets (cfg (snd r2)) !! "zzz" = None.
Proof. vm_compute. repeat split; reflexivity. Qed.

(** C2, failing input of [src/main.go]: [Switch] of a name that is not a
    wallet returns nil instead of NotFound; it moves the current wallet's
    directory out of "data" and records the unknown name as current. *)
Lemma MainGo_Switch_unknown_succeeds :
  MainGo.Switch "zzz"
    (mkSt (mkConfig "/c" "/w" "a" {["a" := "A"]}) {["data" := EDir true]} []) =
  (inr tt, mkSt (mkConfig "/c" "/w" "zzz" {["a" := "A"]}) {["a" := EDir true]} []).
Proof. vm_compute. reflexivity. Qed.

(** C4, failing input of [src/main.go]: [Add "data"] names the wallet "y"
    and returns nil, but [Switch] is called with the directory name, so
    the current wallet becomes "data" instead of "y". *)
Lemma MainGo_Add_data_activates_data :
  let r := MainGo.Add "data"
             (mkSt (mkConfig "/c" "/w" "x" {["x" := "X"]}) {["data" := EDir true]}
                   ["y"; "d"]) in
  fst r = inr tt /\ Wallets (cfg (snd r)) !! "y" = Some "d" /\
  CurrentWallet (cfg (snd r)) = "data".
Proof. vm_compute. repeat split; reflexivity. Qed.

(** C5, failing input of [src/main.go]: [Edit] of a wallet whose
    description is empty fails with NotFound. *)
Lemma MainGo_Edit_empty_description :
  let s := mkSt (mkConfig "/c" "/w" "" {["a" := ""]}) {["a" := EDir true]} ["";""] in
  Wallets (cfg s) !! "a" = Some "" /\ MainGo.Edit "a" s = (inl NotFound, s).
Proof. vm_compute. split; reflexivity. Qed.

(* ------------------------------------------------------------------ *)
(** ** The same questions on [Part001] *)

(** A successful [Part001.Add] from a config satisfying [Inv] was called
    with a name other than "data", and that name is current afterwards. *)
Lemma Part001_Add_activates n s s' u :
  Inv (cfg s) -> Part001.Add n s = (inr u, s') ->
  n <> currentWalletDirName /\ CurrentWallet (cfg s') = n /\
  is_Some (Wallets (cfg s') !! n).
Proof.
  intros HI H. pose proof (Add_inv _ _ _ _ HI H) as (_ & _ & Hd).
  unfold Part001.Add in H. run_ok.
  all: match goal with Hs : Part001.Switch _ _ = _ |- _ =>
         destruct u; apply Switch_ok in Hs as (Ec & _ & Hk) end.
  all: rewrite Ec in *; simpl in *.
  all: split_and!; [eapply key_not_data; eassumption | reflexivity | assumption].
Qed.

Lemma bind_inl {A B} (m : M A) (k : A -> M B) s e s2 :
  bind m k s = (inl e, s2) ->
  (exists s1, m s = (inl e, s1)) \/
  (exists a s1, m s = (inr a, s1) /\ k a s1 = (inl e, s2)).
Proof. unfold bind. destruct (m s) as [[e'|a] s1]; intros; simplify_eq; eauto. Qed.

Lemma promptName_err dflt s e s' : promptName dflt s = (inl e, s') -> e = Fatal.
Proof. unfold promptName. destruct (nameLoop dflt (input s)) as [[]|]; congruence. Qed.

Lemma scanLine_err s e s' : scanLine s = (inl e, s') -> e = Fatal.
Proof. unfold scanLine. destruct (input s); congruence. Qed.

(** Take a failed run apart, following the error to the statement that
    raised it. *)
Ltac err_step :=
  match goal with
  | H : bind _ _ _ = (inl _, _) |- _ =>
      apply bind_inl in H; destruct H as [(? & H) | (? & ? & ? & H)]; cbv beta in H
  | H : promptName _ _ = (inl _, _) |- _ => apply promptName_err in H
  | H : scanLine _ = (inl _, _) |- _ => apply scanLine_err in H
  | H : ret _ _ = (inl _, _) |- _ => unfold ret in H
  | H : throw _ _ = _ |- _ => unfold throw in H
  | H : getCfg _ = _ |- _ => unfold getCfg in H
  | H : putCfg _ _ = _ |- _ => unfold putCfg in H
  | H : check _ _ = _ |- _ => unfold check in H
  | H : rename _ _ _ = _ |- _ => unfold rename, liftFS in H
  | H : (match ?x with _ => _ end) _ = _ |- _ => destruct x eqn:?
  | H : (let '(_, _) := ?x in _) = _ |- _ => destruct x eqn:?
  end.

(** [Part001.Edit] fails with NotFound exactly when the name is not a
    wallet, whatever its description. *)
Lemma Part001_Edit_NotFound_iff n s :
  (exists s', Part001.Edit n s = (inl NotFound, s')) <-> Wallets (cfg s) !! n = None.
Proof.
  split.
  - intros [s' H]. unfold Part001.Edit in H.
    destruct (Wallets (cfg s) !! n) eqn:Hn; [exfalso|reflexivity].
    repeat (err_step; simplify_eq/=).
  - intros Hn. exists s. unfold Part001.Edit. unfold_M. rewrite Hn. reflexivity.
Qed.

(* ------------------------------------------------------------------ *)
(** ** Witnesses: the theorems at concrete inputs *)

Definition cfgAB : Config := mkConfig "/c" "/w" "a" (<["a" := "A"]> {["b" := "B"]}).
Definition fsAB : FS := <["data" := EDir true]> {["b" := EDir true]}.



Lemma Remove_not_confirmed_witness :
  Part001.Remove 0 "a" (mkSt cfgAB fsAB ["no"]) = (inl Aborted, mkSt cfgAB fsAB []).
Proof.
  apply (Remove_not_confirmed 0 cfgAB fsAB "a" "A" "no" []);
    first [reflexivity | discriminate].
Defined.

Lemma Add_new_wallet_witness :
  Part001.Add "alpha" (mkSt (mkConfig "/c" "/w" "" ∅) {["data" := EDir true]} ["desc"]) =
  (inr tt, mkSt (mkConfig "/c" "/w" "alpha" {["alpha" := "desc"]}) {["data" := EDir true]} []).
Proof. apply Add_new_wallet. reflexivity. Defined.

Lemma Edit_defaults_witness :
  Part001.Edit "b" (mkSt cfgAB fsAB [""; ""]) = (inr tt, mkSt cfgAB fsAB []).
Proof.
  apply (Edit_defaults cfgAB fsAB "b" "B" []); first [reflexivity | discriminate].
Defined.

Lemma Edit_rename_onto_existing_witness :
  let c := mkConfig "/c" "/w" "" (<["a" := "A"]> {["b" := "B"]}) in
  let fs0 : FS := {["a" := EDir true]} in
  Part001.Edit "a" (mkSt c fs0 ["b"; "new"]) =
    (inr tt, mkSt (setWallets c (delete "a" (<["b" := "new"]> (Wallets c))))
                  (<["b" := EDir true]> (delete "a" fs0)) []) /\
  size (delete "a" (<["b" := "new"]> (Wallets c))) = pred (size (Wallets c)).
Proof.
  intros c fs0.
  apply (Edit_rename_onto_existing c fs0 "a" "b" "A" "B" "new" (EDir true) []);
    first [reflexivity | discriminate].
Defined.

(* ------------------------------------------------------------------ *)
(** ** Further properties of the code *)

Import Program.

Lemma osRename_err_fs o n fs0 e fs' :
  osRename o n fs0 = (Some e, fs') -> fs' = fs0.
Proof.
  unfold osRename.
  destruct (fsLookup fs0 n) as [[]|]; destruct (fsLookup fs0 o) as [[]|];
    repeat case_bool_decide; intros; simplify_eq; try reflexivity.
Qed.

Ltac fail_split :=
  repeat (unfold_M;
    match goal with
    | |- context [bool_decide ?P] => case_bool_decide
    | |- context [match ?x with _ => _ end] =>
        lazymatch x with
        | context [match _ with _ => _ end] => fail
        | _ => let E := fresh "E" in destruct x eqn:E
        end
    | H : osRename _ _ _ = (Some _, _) |- _ => apply osRename_err_fs in H; subst
    end); intros; simplify_eq/=; try reflexivity.

Lemma addWallet_fs d b s r s' :
  Part001.addWallet d b s = (r, s') ->
  fs s' = fs s /\ (b = false -> CurrentWallet (cfg s') = CurrentWallet (cfg s)).
Proof.
  destruct s as [c f inp]. unfold Part001.addWallet. fail_split; try discriminate.
  all: try (split; [reflexivity | intros; simplify_eq/=; reflexivity]).
Qed.

Lemma addWallets_fs ws s r s' :
  Part001.addWallets ws s = (r, s') -> fs s' = fs s.
Proof.
  revert s r. induction ws as [|w ws IH]; simpl; intros s r H.
  - unfold ret in H. simplify_eq; reflexivity.
  - unfold bind in H. destruct (Part001.addWallet w true s) as [[e1|u] s1] eqn:H1.
    + simplify_eq. apply addWallet_fs in H1 as [? _]. assumption.
    + apply addWallet_fs in H1 as [<- _]. eapply IH; eassumption.
Qed.

Lemma map_fst_fmap {A B} (l : list (A * B)) : map fst l = l.*1.
Proof. induction l as [|[a b] l IH]; simpl; [reflexivity | rewrite IH; reflexivity]. Qed.

Lemma getWallets_correct (f : FS) :
  NoDup (getWallets f) /\ (forall n, n ∈ getWallets f <-> isWalletDir f n = true).
Proof.
  unfold getWallets. rewrite map_fst_fmap. split.
  - apply NoDup_filter. rewrite merge_sort_Permutation. apply NoDup_fst_map_to_list.
  - intros n. rewrite list_elem_of_filter, merge_sort_Permutation. split; [tauto|].
    intros H. split; [exact H|].
    unfold isWalletDir in H. destruct (fsLookup f n) as [[[|]|]|] eqn:Hn; try discriminate.
    apply fsLookup_Some in Hn as [_ Hn].
    apply list_elem_of_fmap. exists (n, EDir true). split; [reflexivity|].
    apply elem_of_map_to_list. exact Hn.
Qed.


(** [Add] refuses a name that is a plain file ([NotADirectory]) and a
    directory without a [salt] file ([NotAWalletDirectory]); the config,
    the directory and the input stay as they were. *)
Lemma Add_refusals c f inp n :
  (fsLookup f n = Some EFile ->
   Part001.Add n (mkSt c f inp) = (inl NotADirectory, mkSt c f inp)) /\
  (fsLookup f n = Some (EDir false) ->
   Part001.Add n (mkSt c f inp) = (inl NotAWalletDirectory, mkSt c f inp)).
Proof.
  split; intros Hn; unfold Part001.Add; unfold_M; rewrite Hn; unfold_M.
  - reflexivity.
  - unfold isWalletDir. rewrite Hn. reflexivity.
Qed.

Lemma Forget_ok_removed seed n s s' :
  Part001.Forget seed n s = (inr tt, s') -> Wallets (cfg s') !! n = None.
Proof.
  unfold Part001.Forget, Part001.switchToFirstWallet. intros H. run_ok.
  all: try (simplify_map_eq; reflexivity).
  all: apply Switch_ok in H as (Hc & _).
  all: rewrite Hc; unfold setCurrentWallet, setWallets; simpl; apply lookup_delete_eq.
Qed.

(** After a successful [Forget] the name is no longer a wallet of the
    config, also when it was the current wallet and the first remaining
    wallet was switched to. *)
Theorem Forget_ok_gone seed n s s' :
  Part001.Forget seed n s = (inr tt, s') -> Wallets (cfg s') !! n = None.
Proof. exact (Forget_ok_removed seed n s s'). Qed.

(** After a successful [Remove] the name is neither a wallet of the config
    nor an entry of the directory. *)
Lemma Remove_ok_gone seed n s s' :
  Part001.Remove seed n s = (inr tt, s') ->
  fsLookup (fs s') n = None /\ Wallets (cfg s') !! n = None.
Proof.
  intros H. unfold Part001.Remove in H. run_ok.
  match goal with Hf : Part001.Forget _ _ _ = (inr ?u, _) |- _ =>
    destruct u; apply Forget_ok_removed in Hf end.
  split; [|assumption]. unfold osRemoveAll. rewrite fsLookup_delete. case_bool_decide; congruence.
Qed.

(** A wallet registered under the empty name makes [Forget] of the
    current wallet fail half-way: with the wallets [n] (current, a plain
    directory-entry name) and [""], [Forget n] moves [data] back to [n]
    and removes [n] from the config, then switches to [""] as the first
    remaining wallet; [Switch] takes [""] for the current wallet (the
    empty [CurrentWallet] just set) and refuses it with [AlreadyActive],
    so the command fails after the directory has changed and with the
    current wallet cleared. *)
Lemma Forget_current_empty_name_fails seed c f inp n d d' e0 :
  plainName n = true -> CurrentWallet c = n -> Wallets c = <[n := d]> {["" := d']} ->
  n <> "" -> n <> currentWalletDirName ->
  fsLookup f currentWalletDirName = Some e0 -> fsLookup f n = None ->
  Part001.Forget seed n (mkSt c f inp) =
  (inl AlreadyActive,
   mkSt (mkConfig (configFilePath c) (WalletsDir c) "" {["" := d']})
        (<[n := e0]> (delete currentWalletDirName f)) inp).
Proof.
  intros _ Hc Hw Hn Hnd Hd Hf.
  unfold Part001.Forget, Part001.switchToFirstWallet, Part001.Switch. unfold_M.
  rewrite Hw, lookup_insert_eq. unfold_M. rewrite Hc, bool_decide_true by reflexivity.
  unfold_M. rewrite (osRename_move _ _ _ e0) by (congruence || assumption). unfold_M.
  rewrite Hw, delete_insert_eq, delete_singleton_ne by congruence.
  unfold firstKey. rewrite map_to_list_singleton. simpl.
  reflexivity.
Qed.

Lemma fsLookup_empty f : fsLookup f "" = None.
Proof. reflexivity. Qed.

(** [Add ""] (the argument [""] on the command line) registers a wallet
    named with the empty string and clears the current wallet: [Switch]
    moves [data] back to the current wallet's name (a plain
    directory-entry name) and the rename of the empty path fails with
    ENOENT, which it ignores. *)
Lemma Add_empty_name c f a d e0 rest :
  plainName a = true -> CurrentWallet c = a -> a <> "" -> a <> currentWalletDirName ->
  fsLookup f currentWalletDirName = Some e0 -> fsLookup f a = None ->
  Part001.Add "" (mkSt c f (d :: rest)) =
  (inr tt, mkSt (mkConfig (configFilePath c) (WalletsDir c) "" (<["" := d]> (Wallets c)))
                (<[a := e0]> (delete currentWalletDirName f)) rest).
Proof.
  intros _ Hc Ha Had Hd Hf.
  unfold Part001.Add, Part001.addWallet, Part001.Switch. unfold_M.
  rewrite fsLookup_empty. unfold_M. str_dec. unfold_M.
  rewrite Hc, lookup_insert_eq, (bool_decide_false (a = "")) by assumption. unfold_M.
  rewrite (bool_decide_true (a <> "")) by assumption. unfold_M.
  rewrite (osRename_move _ _ _ e0) by (congruence || assumption). unfold_M.
  rewrite osRename_missing by reflexivity. unfold_M. reflexivity.
Qed.

(** Renaming the current wallet with [Edit] changes only the config: the
    new name becomes current with the new description and the old name is
    deleted, while the directory is left as it was. *)
Lemma Edit_current_rename c f a b da d rest :
  Wallets c !! a = Some da -> CurrentWallet c = a -> a <> b -> b <> "" ->
  b <> currentWalletDirName -> d <> "" ->
  Part001.Edit a (mkSt c f (b :: d :: rest)) =
  (inr tt, mkSt (mkConfig (configFilePath c) (WalletsDir c) b (delete a (<[b := d]> (Wallets c))))
                f rest).
Proof.
  intros Ha Hc Hab Hb Hbd Hd. unfold Part001.Edit. unfold_M. rewrite Ha. unfold_M.
  cbn [nameLoop]. rewrite (bool_decide_false (b = "")), (bool_decide_false (b = _))
    by assumption.
  unfold_M. rewrite (bool_decide_false (d = "")), (bool_decide_true (CurrentWallet c = a))
    by assumption.
  unfold_M. rewrite (bool_decide_true (a <> b)) by assumption. unfold_M. reflexivity.
Qed.

Definition initInv (done : list string) (c : Config) : Prop :=
  (forall k, is_Some (Wallets c !! k) <->
     (k ∈ done /\ k <> currentWalletDirName) \/
     (currentWalletDirName ∈ done /\ k = CurrentWallet c)) /\
  (currentWalletDirName ∈ done -> CurrentWallet c <> "") /\
  (currentWalletDirName ∉ done -> CurrentWallet c = "").

Lemma initInv_proper l l' c :
  (forall x, x ∈ l <-> x ∈ l') -> initInv l c -> initInv l' c.
Proof.
  intros Hl (H1 & H2 & H3). split; [|split].
  - intros k. rewrite H1, !Hl. reflexivity.
  - rewrite <- Hl. exact H2.
  - rewrite <- Hl. exact H3.
Qed.

Lemma nameLoop_nonempty dflt inp n rest :
  dflt <> "" -> nameLoop dflt inp = Some (n, rest) -> n <> "".
Proof.
  intros Hd. induction inp as [|l inp IH]; simpl; [discriminate|].
  case_bool_decide as Hn; [exact IH|].
  intros [= <- _]. case_bool_decide; congruence.
Qed.

Lemma addWallet_initInv done w s s' :
  w ∉ done -> initInv done (cfg s) -> Part001.addWallet w true s = (inr tt, s') ->
  initInv (w :: done) (cfg s').
Proof.
  intros Hw (H1 & H2 & H3) H. unfold Part001.addWallet in H.
  apply bind_inr in H as (nm & s1 & Hn & H).
  case_bool_decide as Hwd.
  - assert (nm <> "").
    { unfold promptName in Hn. destruct (nameLoop w (input s)) as [[m rest]|] eqn:E;
        [|discriminate]. injection Hn as <- _.
      eapply nameLoop_nonempty; [|exact E]. rewrite Hwd. discriminate. }
    apply promptName_ok in Hn as ([rest ->] & Hnd).
    subst w. assert (Hcur : CurrentWallet (cfg s) = "") by auto.
    run_ok. split; [|split]; simpl.
    + intros k. rewrite lookup_insert_is_Some', H1, !elem_of_cons.
      split.
      * intros [<- | [[Hk Hkd] | [Hdd ->]]]; [right; auto | left; auto | contradiction].
      * intros [[[-> | Hk] Hkd] | [_ ->]]; [contradiction | auto | auto].
    + intros _. assumption.
    + intros Hn. exfalso. apply Hn. apply list_elem_of_here.
  - unfold ret in Hn. injection Hn as <- <-.
    run_ok. split; [|split]; simpl.
    + intros k. rewrite lookup_insert_is_Some', H1, !elem_of_cons.
      split.
      * intros [<- | [[Hk Hkd] | [Hdd ->]]]; [left; auto | left; auto | right; auto].
      * intros [[[-> | Hk] Hkd] | [[Hdd | Hdd] ->]]; [auto | auto | congruence | auto].
    + rewrite elem_of_cons. intros [Hdd | Hdd]; [congruence | auto].
    + rewrite elem_of_cons. intros Hn. apply H3. auto.
Qed.

Lemma addWallets_initInv ws done s s' :
  NoDup (ws ++ done) -> initInv done (cfg s) -> Part001.addWallets ws s = (inr tt, s') ->
  initInv (ws ++ done) (cfg s').
Proof.
  revert done s. induction ws as [|w ws IH]; simpl; intros done s Hnd HI H.
  - unfold ret in H. simplify_eq. exact HI.
  - apply bind_inr in H as ([] & s1 & H1 & H).
    apply NoDup_cons in Hnd as [Hw Hnd].
    apply addWallet_initInv with (done := done) in H1;
      [| intros Hd; apply Hw, elem_of_app; auto | exact HI].
    eapply initInv_proper; [|eapply IH; [|exact H1|exact H]].
    + intros x. set_solver.
    + apply NoDup_app in Hnd as (Hws & Hdis & Hdone).
      apply NoDup_app. split; [exact Hws|]. split.
      * intros x Hx. rewrite elem_of_cons. intros [-> | Hd].
        -- apply Hw, elem_of_app. auto.
        -- exact (Hdis x Hx Hd).
      * apply NoDup_cons. split; [|exact Hdone]. intros Hd. apply Hw, elem_of_app. auto.
Qed.

Lemma Switch_from_empty_fs k s s' :
  CurrentWallet (cfg s) = "" -> Part001.Switch k s = (inr tt, s') ->
  fs s' = snd (osRename k currentWalletDirName (fs s)).
Proof.
  intros Hc H. unfold Part001.Switch in H. run_ok.
  all: try congruence.
  all: match goal with Hr : osRename _ _ _ = _ |- _ => rewrite Hr; reflexivity end.
Qed.

Lemma firstKey_some seed (m : gmap string string) k v :
  m !! k = Some v -> exists k', firstKey seed m = Some k'.
Proof.
  intros Hk. unfold firstKey.
  assert (Hl : length (map fst (map_to_list m)) <> 0).
  { rewrite length_map. intros Hz. apply length_zero_iff_nil in Hz.
    apply elem_of_map_to_list in Hk. rewrite Hz in Hk. inversion Hk. }
  destruct (nth_error _ _) eqn:E; [eauto|].
  apply nth_error_None in E. pose proof (Nat.mod_upper_bound seed _ Hl). lia.
Qed.

Lemma Init_run seed s s' :
  Part001.Init seed s = (inr tt, s') ->
  exists c1, initInv (getWallets (fs s)) c1 /\
    ((CurrentWallet c1 <> "" /\ cfg s' = c1 /\ fs s' = fs s) \/
     (CurrentWallet c1 = "" /\ exists inp,
        Part001.switchToFirstWallet seed (mkSt c1 (fs s) inp) = (inr tt, s'))).
Proof.
  intros H. unfold Part001.Init in H.
  apply bind_inr in H as (ws & s1 & H1 & H). unfold liftFS in H1. simplify_eq/=.
  apply bind_inr in H as (c & s2 & H2 & H). unfold getCfg in H2. simplify_eq/=.
  apply bind_inr in H as ([] & s3 & H3 & H). unfold putCfg in H3. simplify_eq/=.
  apply bind_inr in H as ([] & s4 & H4 & H).
  pose proof (addWallets_fs _ _ _ _ H4) as Hf4. simpl in Hf4.
  apply addWallets_initInv with (done := []) in H4.
  2:{ rewrite app_nil_r. apply getWallets_correct. }
  2:{ split; [|split]; simpl.
      - intros k. rewrite lookup_empty. split; [intros [? ?]; discriminate|].
        intros [[Hk _] | [Hk _]]; inversion Hk.
      - intros Hk. inversion Hk.
      - intros _. reflexivity. }
  rewrite app_nil_r in H4.
  apply bind_inr in H as (c5 & s5 & H5 & H). unfold getCfg in H5. injection H5 as <- <-.
  exists (cfg s4). split; [exact H4|].
  case_bool_decide as Hc.
  - right. split; [exact Hc|]. exists (input s4). rewrite <- Hf4. destruct s4. exact H.
  - left. unfold ret in H. simplify_eq. auto.
Qed.

(** After a successful [Init] the wallets of the config are exactly the
    wallet directories other than [data], plus, when [data] is a wallet
    directory, the current wallet (the name entered for it). *)
Lemma Init_registers_wallet_dirs seed s s' :
  Part001.Init seed s = (inr tt, s') ->
  forall k, is_Some (Wallets (cfg s') !! k) <->
    (isWalletDir (fs s) k = true /\ k <> currentWalletDirName) \/
    (isWalletDir (fs s) currentWalletDirName = true /\ k = CurrentWallet (cfg s')).
Proof.
  intros H k. pose proof (getWallets_correct (fs s)) as [_ Hws].
  apply Init_run in H as (c1 & (H1 & H2 & H3) & [(Hc & <- & _) | (Hc & inp & H)]).
  - rewrite H1, !Hws. reflexivity.
  - assert (Hd : currentWalletDirName ∉ getWallets (fs s)) by (intros Hin; exact (H2 Hin Hc)).
    rewrite Hws in Hd.
    assert (Hw : Wallets (cfg s') = Wallets c1).
    { unfold Part001.switchToFirstWallet, bind, getCfg in H. simpl in H.
      destruct (firstKey seed (Wallets c1)) as [k'|].
      - apply Switch_ok in H as (-> & _). reflexivity.
      - unfold ret in H. simplify_eq. reflexivity. }
    rewrite Hw, H1, !Hws. split; [|tauto]. intros [? | [? _]]; [auto | contradiction].
Qed.

(** A successful [Init] over a directory with at least one wallet directory
    leaves a current wallet that is a registered wallet. *)
Lemma Init_sets_current seed s s' :
  Part001.Init seed s = (inr tt, s') ->
  (exists k, isWalletDir (fs s) k = true) ->
  CurrentWallet (cfg s') <> "" /\ is_Some (Wallets (cfg s') !! CurrentWallet (cfg s')).
Proof.
  intros H [k Hk]. pose proof (Init_inv _ _ _ _ H) as (HI & _).
  pose proof (getWallets_correct (fs s)) as [_ Hws].
  apply Init_run in H as (c1 & (H1 & H2 & H3) & [(Hc & <- & _) | (Hc & inp & H)]).
  - destruct HI; [contradiction | auto].
  - assert (Hd : currentWalletDirName ∉ getWallets (fs s)) by (intros Hin; exact (H2 Hin Hc)).
    assert (Hkey : is_Some (Wallets c1 !! k)).
    { apply H1. left. split; [apply Hws; exact Hk|].
      intros ->. apply Hd, Hws. exact Hk. }
    destruct Hkey as [v Hv]. destruct (firstKey_some seed _ _ _ Hv) as [k' Hk'].
    unfold Part001.switchToFirstWallet, bind, getCfg in H. simpl in H. rewrite Hk' in H.
    apply Switch_ok in H as (Hc' & Hne & Hkey'). rewrite Hc'. simpl. split; [|exact Hkey'].
    simpl in Hne. congruence.
Qed.

(** A successful [Init] renames nothing when [data] is a wallet directory;
    otherwise, with a wallet directory present, its only change to the
    directory is moving the chosen current wallet to [data]. *)
Lemma Init_directory seed s s' :
  Part001.Init seed s = (inr tt, s') ->
  (isWalletDir (fs s) currentWalletDirName = true -> fs s' = fs s) /\
  (isWalletDir (fs s) currentWalletDirName = false -> (exists k, isWalletDir (fs s) k = true) ->
   fs s' = snd (osRename (CurrentWallet (cfg s')) currentWalletDirName (fs s))).
Proof.
  intros H. pose proof (getWallets_correct (fs s)) as [_ Hws].
  apply Init_run in H as (c1 & (H1 & H2 & H3) & [(Hc & Hcfg & Hf) | (Hc & inp & H)]).
  - split; [auto|]. intros Hd. exfalso. apply Hc, H3. rewrite Hws, Hd. discriminate.
  - split.
    + intros Hd. exfalso. apply (H2 (proj2 (Hws _) Hd)). exact Hc.
    + intros Hd [k Hk].
      assert (Hkey : is_Some (Wallets c1 !! k)).
      { apply H1. left. split; [apply Hws; exact Hk|]. intros ->. congruence. }
      destruct Hkey as [v Hv]. destruct (firstKey_some seed _ _ _ Hv) as [k' Hk'].
      unfold Part001.switchToFirstWallet, bind, getCfg in H. simpl in H. rewrite Hk' in H.
      pose proof H as Hs. apply Switch_ok in Hs as (Hc' & _).
      apply Switch_from_empty_fs in H; [|exact Hc]. rewrite Hc'. exact H.
Qed.

Lemma loadConfig_undecoded cf sd isDir seed k k' w partial :
  configFile w = Undecoded partial ->
  loadConfig cf sd isDir seed k w = loadConfig cf sd isDir seed k' w.
Proof.
  intros Hw. unfold loadConfig. rewrite Hw. simpl.
  destruct (_ (mkSt _ (walletsRoot w) (stdin w))) as [[e|u] s].
  - reflexivity.
  - destruct (negb _); reflexivity.
Qed.

(** With a config file that could not be read or decoded, [switch],
    [edit], [add], [forget] and [remove] never run their operation:
    whatever the argument, the program does exactly what [status] does on
    the same world ([loadConfig] asks for the wallets directory if the
    config has none, checks it, then runs [Init], writes its result and
    exits). *)
Theorem main_unreadable_config_runs_Init cf sd isDir seed p sub a rest partial w :
  sub ∈ ["switch"; "edit"; "add"; "forget"; "remove"] ->
  configFile w = Undecoded partial ->
  main cf sd isDir seed (p :: sub :: a :: rest) w = main cf sd isDir seed [p; "status"] w.
Proof.
  intros Hsub Hw.
  assert (Hs : main cf sd isDir seed [p; "status"] w = loadConfig cf sd isDir seed (fun _ w => (0, w)) w)
    by reflexivity.
  rewrite Hs. unfold main, runSubcommand.
  repeat (apply elem_of_cons in Hsub as [-> | Hsub];
          [simpl; repeat (rewrite bool_decide_false by discriminate);
           rewrite ?bool_decide_true by reflexivity; apply (loadConfig_undecoded _ _ _ _ _ _ _ _ Hw)|]).
  apply elem_of_nil in Hsub. contradiction.
Qed.

(** [status] with a decoded config naming an existing wallets directory
    exits with status 0 and changes nothing (it reads no input either). *)
Theorem main_status_read_only cf sd isDir seed p c0 root sd0 inp :
  WalletsDir c0 <> "" -> isDir (WalletsDir c0) = true ->
  main cf sd isDir seed [p; "status"] (mkWorld (Decoded c0) root sd0 inp) =
  (0, mkWorld (Decoded c0) root sd0 inp).
Proof.
  intros Hd Hdir. unfold main. simpl.
  unfold loadConfig. simpl. rewrite bool_decide_false by exact Hd. simpl.
  rewrite Hdir. reflexivity.
Qed.

(* ------------------------------------------------------------------ *)
(** ** Witnesses of the further properties *)

Definition isDirW (p : string) : bool := bool_decide (p = "/w").


Lemma Add_refusals_witness :
  Part001.Add "f" (mkSt cfgAB (<["f" := EFile]> fsAB) []) =
    (inl NotADirectory, mkSt cfgAB (<["f" := EFile]> fsAB) []) /\
  Part001.Add "x" (mkSt cfgAB (<["x" := EDir false]> fsAB) []) =
    (inl NotAWalletDirectory, mkSt cfgAB (<["x" := EDir false]> fsAB) []).
Proof.
  split.
  - apply (proj1 (Add_refusals cfgAB (<["f" := EFile]> fsAB) [] "f")). reflexivity.
  - apply (proj2 (Add_refusals cfgAB (<["x" := EDir false]> fsAB) [] "x")). reflexivity.
Defined.

Lemma Forget_ok_gone_witness :
  Part001.Forget 0 "a" (mkSt cfgAB fsAB []) =
    (inr tt, mkSt (mkConfig "/c" "/w" "b" {["b" := "B"]})
                  (<["data" := EDir true]> {["a" := EDir true]}) []) /\
  Wallets (mkConfig "/c" "/w" "b" {["b" := "B"]}) !! "a" = None.
Proof.
  assert (h : Part001.Forget 0 "a" (mkSt cfgAB fsAB []) =
    (inr tt, mkSt (mkConfig "/c" "/w" "b" {["b" := "B"]})
                  (<["data" := EDir true]> {["a" := EDir true]}) [])) by reflexivity.
  split; [exact h | exact (Forget_ok_gone _ _ _ _ h)].
Defined.

Lemma Remove_ok_gone_witness :
  Part001.Remove 0 "b" (mkSt cfgAB fsAB ["yes"]) =
    (inr tt, mkSt (mkConfig "/c" "/w" "a" {["a" := "A"]}) {["data" := EDir true]} []) /\
  fsLookup {["data" := EDir true]} "b" = None /\
  Wallets (mkConfig "/c" "/w" "a" {["a" := "A"]}) !! "b" = None.
Proof.
  assert (h : Part001.Remove 0 "b" (mkSt cfgAB fsAB ["yes"]) =
    (inr tt, mkSt (mkConfig "/c" "/w" "a" {["a" := "A"]}) {["data" := EDir true]} []))
    by reflexivity.
  split; [exact h | exact (Remove_ok_gone _ _ _ _ h)].
Defined.

Lemma Forget_current_empty_name_fails_witness :
  Part001.Forget 0 "a" (mkSt (mkConfig "/c" "/w" "a" (<["a" := "A"]> {["" := "E"]}))
                             {["data" := EDir true]} []) =
  (inl AlreadyActive, mkSt (mkConfig "/c" "/w" "" {["" := "E"]})
                           (<["a" := EDir true]> (delete currentWalletDirName {["data" := EDir true]})) []).
Proof.
  apply (Forget_current_empty_name_fails 0 (mkConfig "/c" "/w" "a" (<["a" := "A"]> {["" := "E"]}))
           {["data" := EDir true]} [] "a" "A" "E" (EDir true));
    first [reflexivity | discriminate].
Defined.

Lemma Add_empty_name_witness :
  Part001.Add "" (mkSt cfgAB fsAB ["E"]) =
  (inr tt, mkSt (mkConfig "/c" "/w" "" (<["" := "E"]> (Wallets cfgAB)))
                (<["a" := EDir true]> (delete currentWalletDirName fsAB)) []).
Proof.
  apply (Add_empty_name cfgAB fsAB "a" "E" (EDir true) []);
    first [reflexivity | discriminate].
Defined.

Lemma Edit_current_rename_witness :
  Part001.Edit "a" (mkSt cfgAB fsAB ["z"; "Z"]) =
  (inr tt, mkSt (mkConfig "/c" "/w" "z" (delete "a" (<["z" := "Z"]> (Wallets cfgAB)))) fsAB []).
Proof.
  apply (Edit_current_rename cfgAB fsAB "a" "z" "A" "Z" []);
    first [reflexivity | discriminate].
Defined.

Definition cfg0 : Config := mkConfig "/c" "/w" "" ∅.

Lemma Init_registers_wallet_dirs_witness :
  Part001.Init 0 (mkSt cfg0 fsAB ["x"; "y"; "z"]) =
    (inr tt, mkSt (mkConfig "/c" "/w" "y" (<["y" := "z"]> {["b" := "x"]})) fsAB []) /\
  forall k, is_Some ((<["y" := "z"]> {["b" := "x"]} : gmap string string) !! k) <->
    (isWalletDir fsAB k = true /\ k <> currentWalletDirName) \/
    (isWalletDir fsAB currentWalletDirName = true /\ k = "y").
Proof.
  assert (h : Part001.Init 0 (mkSt cfg0 fsAB ["x"; "y"; "z"]) =
    (inr tt, mkSt (mkConfig "/c" "/w" "y" (<["y" := "z"]> {["b" := "x"]})) fsAB []))
    by reflexivity.
  split; [exact h | exact (Init_registers_wallet_dirs _ _ _ h)].
Defined.

Lemma Init_sets_current_witness :
  Part001.Init 0 (mkSt cfg0 (<["a" := EDir true]> {["b" := EDir true]}) ["A"; "B"]) =
    (inr tt, mkSt (mkConfig "/c" "/w" "a" (<["b" := "B"]> {["a" := "A"]})) fsAB []) /\
  isWalletDir (<["a" := EDir true]> {["b" := EDir true]}) "b" = true /\
  "a" <> "" /\ is_Some ((<["b" := "B"]> {["a" := "A"]} : gmap string string) !! "a").
Proof.
  assert (h1 : Part001.Init 0 (mkSt cfg0 (<["a" := EDir true]> {["b" := EDir true]}) ["A"; "B"]) =
    (inr tt, mkSt (mkConfig "/c" "/w" "a" (<["b" := "B"]> {["a" := "A"]})) fsAB []))
    by reflexivity.
  assert (h2 : isWalletDir (<["a" := EDir true]> {["b" := EDir true]}) "b" = true)
    by reflexivity.
  split; [exact h1 | split; [exact h2|]].
  exact (Init_sets_current _ _ _ h1 (ex_intro _ "b" h2)).
Defined.

Lemma Init_directory_witness :
  Part001.Init 0 (mkSt cfg0 (<["a" := EDir true]> {["b" := EDir true]}) ["A"; "B"]) =
    (inr tt, mkSt (mkConfig "/c" "/w" "a" (<["b" := "B"]> {["a" := "A"]})) fsAB []) /\
  (isWalletDir (<["a" := EDir true]> {["b" := EDir true]}) currentWalletDirName = true ->
   fsAB = <["a" := EDir true]> {["b" := EDir true]}) /\
  (isWalletDir (<["a" := EDir true]> {["b" := EDir true]}) currentWalletDirName = false ->
   (exists k, isWalletDir (<["a" := EDir true]> {["b" := EDir true]}) k = true) ->
   fsAB = snd (osRename "a" currentWalletDirName (<["a" := EDir true]> {["b" := EDir true]}))).
Proof.
  assert (h : Part001.Init 0 (mkSt cfg0 (<["a" := EDir true]> {["b" := EDir true]}) ["A"; "B"]) =
    (inr tt, mkSt (mkConfig "/c" "/w" "a" (<["b" := "B"]> {["a" := "A"]})) fsAB []))
    by reflexivity.
  split; [exact h | exact (Init_directory _ _ _ h)].
Defined.

Lemma main_unreadable_config_runs_Init_witness :
  main "/c" (Some "/w") isDirW 0 ["tws"; "switch"; "b"]
       (mkWorld (Undecoded (mkConfig "" "/w" "" ∅)) fsAB None ["x"; "y"; "z"]) =
  main "/c" (Some "/w") isDirW 0 ["tws"; "status"]
       (mkWorld (Undecoded (mkConfig "" "/w" "" ∅)) fsAB None ["x"; "y"; "z"]).
Proof.
  apply (main_unreadable_config_runs_Init "/c" (Some "/w") isDirW 0 "tws" "switch" "b" []
           (mkConfig "" "/w" "" ∅) (mkWorld (Undecoded (mkConfig "" "/w" "" ∅)) fsAB None ["x"; "y"; "z"])).
  - apply elem_of_cons. left. reflexivity.
  - reflexivity.
Defined.

Lemma main_status_read_only_witness :
  main "/c" None isDirW 0 ["tws"; "status"] (mkWorld (Decoded cfgAB) fsAB None []) =
  (0, mkWorld (Decoded cfgAB) fsAB None []).
Proof.
  apply (main_status_read_only "/c" None isDirW 0 "tws" cfgAB fsAB None []);
    first [discriminate | reflexivity].
Defined.